(** * The Vagrant driver of molecule-plugins: a shallow embedding

    Source: [src/molecule_plugins/vagrant/driver.py], class [Vagrant].

    The driver is a thin adapter: a few accessors computed from the
    scenario configuration, and two dictionary-building methods that
    look a record up in the instance-config file.  The embedding keeps
    the Python shape of the code:

    - Python values ([pyval]) are the values a YAML document can hold;
      a dict is a [gmap string pyval];
    - a Python call that may raise returns a [result], whose [Raise]
      carries the exception class; [try]/[except] is a [match] on it;
    - the disk, the executable search path and the install location are
      read from an explicit [host];
    - the driver object is a record with its two attributes, [_config]
      and [_name]; the only method that assigns an attribute (the setter
      of [name]) returns the updated object. *)

From Stdlib Require Import ZArith String Ascii List.
From stdpp Require Import gmap strings list fin_maps pretty.

Set Warnings "-register-all".

Local Open Scope string_scope.

(** ** Python values, exceptions and results *)

Module Py.

(** The values of a parsed YAML document (floats and timestamps are left
    out: no code path of the driver distinguishes them from an [int]). *)
Inductive pyval : Type :=
  | PNone
  | PBool (b : bool)
  | PInt (z : Z)
  | PStr (s : string)
  | PList (l : list pyval)
  | PDict (d : gmap string pyval).

(** The exception classes the driver can meet.  [KeyError] is a
    [LookupError], [StopIteration], [TypeError], [AttributeError],
    [ValueError] and [IndexError] derive from [Exception] directly, and
    [SystemExit] from [BaseException]: [OSError] and [StopIteration] are
    the only ones an [except OSError] / [except StopIteration] clause
    catches. *)
Inductive exn : Type :=
  | StopIteration
  | OSError
  | KeyError (key : string)
  | TypeError
  | AttributeError
  | ValueError
  | IndexError
  | SystemExit (msg : string).

Inductive result (A : Type) : Type :=
  | Ok (a : A)
  | Raise (e : exn).
Arguments Ok {A} a.
Arguments Raise {A} e.

#[export] Instance result_ret : MRet result := fun A a => Ok a.
#[export] Instance result_bind : MBind result := fun A B f m =>
  match m with
  | Ok a => f a
  | Raise e => Raise e
  end.
#[export] Instance result_fmap : FMap result := fun A B f m =>
  match m with
  | Ok a => Ok (f a)
  | Raise e => Raise e
  end.

Definition is_Ok {A} (r : result A) : Prop := exists a, r = Ok a.
Definition raises {A} (r : result A) : Prop := exists e, r = Raise e.

(** [bool(v)]. *)
Definition truthy (v : pyval) : bool :=
  match v with
  | PNone => false
  | PBool b => b
  | PInt z => negb (z =? 0)%Z
  | PStr s => negb (String.eqb s "")
  | PList l => match l with [] => false | _ => true end
  | PDict d => match map_to_list d with [] => false | _ => true end
  end.

(** [v[key]] for a [str] key: only a dict accepts it. *)
Definition getitem (v : pyval) (key : string) : result pyval :=
  match v with
  | PDict d =>
      match d !! key with
      | Some x => Ok x
      | None => Raise (KeyError key)
      end
  | _ => Raise TypeError
  end.

(** [v == name] where [name] is a [str]: only an equal [str] compares
    equal. *)
Definition eq_str (v : pyval) (name : string) : bool :=
  match v with
  | PStr s => String.eqb s name
  | _ => false
  end.

Fixpoint chars (s : string) : list pyval :=
  match s with
  | EmptyString => []
  | String c rest => PStr (String c EmptyString) :: chars rest
  end.

(** [iter(v)], unfolded to the list of the items it yields.  A dict
    yields its keys (their order is the insertion order in Python and is
    not recorded by a [gmap]; every key is a [str] either way). *)
Definition iter (v : pyval) : result (list pyval) :=
  match v with
  | PList l => Ok l
  | PDict d => Ok (PStr <$> (map_to_list d).*1)
  | PStr s => Ok (chars s)
  | _ => Raise TypeError
  end.

(** [sep.join(l)] on a list of [str]. *)
Definition join (sep : string) (l : list string) : string :=
  String.concat sep l.

Definition startswith (s p : string) : bool := String.prefix p s.

Fixpoint endswith_char (s : string) (c : ascii) : bool :=
  match s with
  | EmptyString => false
  | String a EmptyString => Ascii.eqb a c
  | String _ rest => endswith_char rest c
  end.

(** [os.path.join(a, b)] of [posixpath], for two components. *)
Definition os_path_join (a b : string) : string :=
  if startswith b "/" then b
  else if (String.eqb a "" || endswith_char a "/")%bool then a ++ b
  else a ++ "/" ++ b.

End Py.

Export Py.

(** ** [str.format] with keyword arguments *)

Module Format.

(** The keyword arguments the login template is formatted with are
    [str] and [int] values; [str()] of either is what [format] inserts. *)
Inductive fmt_value : Type :=
  | FStr (s : string)
  | FInt (z : Z).

Definition py_str (v : fmt_value) : string :=
  match v with
  | FStr s => s
  | FInt z => pretty z
  end.

(** The scanner of [str.format]: literal text, the escapes [{{] and
    [}}], and replacement fields [{name}] with a plain keyword name
    (conversions, format specifications and attribute or index access
    do not occur in the template of the driver and are not modelled). *)
Inductive scan : Type :=
  | Lit
  | Opened
  | Closed
  | Field (name : string).

Fixpoint format_from (st : scan) (s : string) (kwargs : gmap string fmt_value)
  : result string :=
  match s with
  | EmptyString =>
      match st with
      | Lit => Ok ""
      | _ => Raise ValueError
      end
  | String c rest =>
      match st with
      | Lit =>
          if Ascii.eqb c "{" then format_from Opened rest kwargs
          else if Ascii.eqb c "}" then format_from Closed rest kwargs
          else String c <$> format_from Lit rest kwargs
      | Opened =>
          if Ascii.eqb c "{" then String c <$> format_from Lit rest kwargs
          else if Ascii.eqb c "}" then Raise IndexError
          else format_from (Field (String c "")) rest kwargs
      | Closed =>
          if Ascii.eqb c "}" then String c <$> format_from Lit rest kwargs
          else Raise ValueError
      | Field name =>
          if Ascii.eqb c "}" then
            match kwargs !! name with
            | Some v => String.append (py_str v) <$> format_from Lit rest kwargs
            | None => Raise (KeyError name)
            end
          else if Ascii.eqb c "{" then Raise ValueError
          else format_from (Field (name ++ String c "")) rest kwargs
      end
  end.

(** [template.format] called with keyword arguments. *)
Definition format (template : string) (kwargs : gmap string fmt_value)
  : result string :=
  format_from Lit template kwargs.

(** The text holds neither [{] nor [}]: [format] copies it as it is. *)
Fixpoint brace_free (s : string) : bool :=
  match s with
  | EmptyString => true
  | String c rest =>
      negb (Ascii.eqb c "{") && negb (Ascii.eqb c "}") && brace_free rest
  end.

End Format.

(** ** The host framework: configuration, disk, helpers of [molecule.util] *)

Module Molecule.

(** What the driver reads from [self._config] and from the accessors it
    inherits from the base class [Driver] of [molecule.api]:
    - [ephemeral_directory] is [_config.scenario.ephemeral_directory];
    - [inventory_file] is [_config.provisioner.inventory_file];
    - [instance_config] is [_config.driver.instance_config], the path of
      the instance-config file; the driver of a configuration is the
      driver itself, so [self.instance_config] is the same accessor;
    - [ssh_connection_options] is the inherited accessor
      [self.ssh_connection_options], the configured SSH options;
    - [base_ssh_connection_options] is what the inherited
      [self._get_ssh_connection_options()] returns. *)
Record config : Type := {
  ephemeral_directory : string;
  inventory_file : string;
  instance_config : string;
  ssh_connection_options : list string;
  base_ssh_connection_options : list string
}.

(** The part of the machine the driver looks at:
    - [files] maps the path of a YAML file on disk to its parsed
      document (no entry: no such file);
    - [which] is [shutil.which], the search of an executable on the
      execution path;
    - [module_dir] is [os.path.dirname(__file__)]. *)
Record host : Type := {
  files : gmap string pyval;
  which : string -> option string;
  module_dir : string
}.

(** Modelled from the spec: [util.safe_load_file] belongs to the host
    framework and is absent from src/.  It opens the file, which fails
    with an [OSError] when "the instance-config file does not yet exist
    on disk", and returns the parsed YAML document, an empty mapping
    standing for an empty (falsy) document. *)
Definition safe_load_file (h : host) (filename : string) : result pyval :=
  match files h !! filename with
  | None => Raise OSError
  | Some v => Ok (if truthy v then v else PDict ∅)
  end.

(** Modelled from the spec: [util.merge_dicts] belongs to the host
    framework and is absent from src/.  It "merges" its second argument
    into a copy of the first: every key of [b] is set in the result, and
    where both hold a mapping under the same key the two mappings are
    merged in the same way. *)
Fixpoint merge_values (a b : pyval) {struct b} : pyval :=
  match b with
  | PDict mb =>
      match a with
      | PDict ma =>
          PDict (map_imap (fun k v =>
                   Some match ma !! k with
                        | Some x => merge_values x v
                        | None => v
                        end) mb ∪ ma)
      | _ => b
      end
  | _ => b
  end.

Definition merge_dicts (a b : gmap string pyval) : gmap string pyval :=
  map_imap (fun k v =>
    Some match a !! k with
         | Some x => merge_values x v
         | None => v
         end) b ∪ a.

(** [b.items()] where [b] has to be a mapping. *)
Definition items_of (b : pyval) : result (gmap string pyval) :=
  match b with
  | PDict d => Ok d
  | _ => Raise AttributeError
  end.

(** Modelled from the spec: [util.sysexit_with_message] belongs to the
    host framework and is absent from src/.  It is the "immediate process
    termination with a descriptive message". *)
Definition sysexit_with_message {A} (msg : string) : result A :=
  Raise (SystemExit msg).

End Molecule.

Export Molecule.

(** ** The driver *)

Module VagrantDriver.

(** The driver object: the configuration it was built with and its
    name. *)
Record Vagrant : Type := {
  _config : config;
  _name : string
}.

Definition __init__ (cfg : config) : Vagrant :=
  {| _config := cfg; _name := "vagrant" |}.

Definition name (self : Vagrant) : string := _name self.

Definition name_setter (self : Vagrant) (value : string) : Vagrant :=
  {| _config := _config self; _name := value |}.

Definition testinfra_options (self : Vagrant) : gmap string pyval :=
  {[ "connection" := PStr "ansible";
     "ansible-inventory" := PStr (inventory_file (_config self)) ]}.

Definition login_cmd_template (self : Vagrant) : string :=
  let connection_options := join " " (ssh_connection_options (_config self)) in
  "ssh {address} "
  ++ "-l {user} "
  ++ "-p {port} "
  ++ "-i {identity_file} "
  ++ connection_options.

Definition vagrantfile (self : Vagrant) : string :=
  os_path_join (ephemeral_directory (_config self)) "Vagrantfile".

Definition default_safe_files (self : Vagrant) : list string :=
  [ vagrantfile self;
    instance_config (_config self);
    os_path_join (ephemeral_directory (_config self)) ".vagrant";
    os_path_join (ephemeral_directory (_config self)) "vagrant-*.out";
    os_path_join (ephemeral_directory (_config self)) "vagrant-*.err" ].

Definition default_ssh_connection_options (self : Vagrant) : list string :=
  base_ssh_connection_options (_config self).

(** [next(item for item in items if item["instance"] == instance_name)]:
    the items are tested in order; a test that raises ends the search
    with its exception, and an exhausted generator makes [next] raise
    [StopIteration]. *)
Fixpoint next_matching (items : list pyval) (instance_name : string)
  : result pyval :=
  match items with
  | [] => Raise StopIteration
  | item :: rest =>
      v ← getitem item "instance";
      if eq_str v instance_name then Ok item
      else next_matching rest instance_name
  end.

Definition _get_instance_config (self : Vagrant) (h : host)
    (instance_name : string) : result pyval :=
  instance_config_dict ← safe_load_file h (instance_config (_config self));
  items ← iter instance_config_dict;
  next_matching items instance_name.

Definition login_options (self : Vagrant) (h : host) (instance_name : string)
  : result (gmap string pyval) :=
  let d : gmap string pyval := {[ "instance" := PStr instance_name ]} in
  r ← _get_instance_config self h instance_name;
  b ← items_of r;
  Ok (merge_dicts d b).

(** The dict display of [ansible_connection_options]: its values are
    evaluated in the order they are written. *)
Definition connection_mapping (self : Vagrant) (d : pyval)
  : result (gmap string pyval) :=
  user ← getitem d "user";
  address ← getitem d "address";
  port ← getitem d "port";
  identity_file ← getitem d "identity_file";
  Ok ({[ "ansible_user" := user;
         "ansible_host" := address;
         "ansible_port" := port;
         "ansible_private_key_file" := identity_file;
         "connection" := PStr "ssh";
         "ansible_ssh_common_args" :=
           PStr (join " " (ssh_connection_options (_config self))) ]}
      : gmap string pyval).

(** The body of the [try] block of [ansible_connection_options]. *)
Definition connection_options_of (self : Vagrant) (h : host)
    (instance_name : string) : result (gmap string pyval) :=
  d ← _get_instance_config self h instance_name;
  connection_mapping self d.

Definition ansible_connection_options (self : Vagrant) (h : host)
    (instance_name : string) : result (gmap string pyval) :=
  match connection_options_of self h instance_name with
  | Raise StopIteration => Ok ∅
  | Raise OSError => Ok ∅
  | r => r
  end.

(** [not which("vagrant")]: [None] and the empty string are falsy. *)
Definition found (p : option string) : bool :=
  match p with
  | Some path => negb (String.eqb path "")
  | None => false
  end.

Definition sanity_checks (h : host) : result unit :=
  if negb (found (which h "vagrant"))
  then sysexit_with_message "vagrant executable was not found!"
  else Ok tt.

Definition template_dir (h : host) : string :=
  os_path_join (module_dir h) "cookiecutter".

Definition modules_dir (h : host) : string :=
  os_path_join (module_dir h) "modules".

End VagrantDriver.

Export VagrantDriver.

(** ** Sequences of calls on one driver object *)

Module Calls.

(** The operations of the driver, with their arguments. *)
Inductive operation : Type :=
  | OpName
  | OpNameSetter (value : string)
  | OpTestinfraOptions
  | OpLoginCmdTemplate
  | OpDefaultSafeFiles
  | OpDefaultSshConnectionOptions
  | OpLoginOptions (instance_name : string)
  | OpAnsibleConnectionOptions (instance_name : string)
  | OpVagrantfile
  | OpSanityChecks
  | OpTemplateDir
  | OpModulesDir.

Definition str_list (l : list string) : pyval := PList (PStr <$> l).

(** One call: what it returns (or raises) and the driver object after
    it.  An assignment and a method without [return] yield [None]. *)
Definition call (op : operation) (self : Vagrant) (h : host)
  : result pyval * Vagrant :=
  match op with
  | OpName => (Ok (PStr (name self)), self)
  | OpNameSetter value => (Ok PNone, name_setter self value)
  | OpTestinfraOptions => (Ok (PDict (testinfra_options self)), self)
  | OpLoginCmdTemplate => (Ok (PStr (login_cmd_template self)), self)
  | OpDefaultSafeFiles => (Ok (str_list (default_safe_files self)), self)
  | OpDefaultSshConnectionOptions =>
      (Ok (str_list (default_ssh_connection_options self)), self)
  | OpLoginOptions instance_name =>
      (PDict <$> login_options self h instance_name, self)
  | OpAnsibleConnectionOptions instance_name =>
      (PDict <$> ansible_connection_options self h instance_name, self)
  | OpVagrantfile => (Ok (PStr (vagrantfile self)), self)
  | OpSanityChecks => ((fun _ : unit => PNone) <$> sanity_checks h, self)
  | OpTemplateDir => (Ok (PStr (template_dir h)), self)
  | OpModulesDir => (Ok (PStr (modules_dir h)), self)
  end.

(** The results of a sequence of calls made one after the other on the
    same driver object, the disk staying as it is. *)
Fixpoint calls (ops : list operation) (self : Vagrant) (h : host)
  : list (result pyval) :=
  match ops with
  | [] => []
  | op :: rest =>
      let '(r, self') := call op self h in
      r :: calls rest self' h
  end.

End Calls.

Export Calls.

(** ** Records of the instance-config file *)

(** [item] is a record of the instance [instance_name]. *)
Definition record_of (instance_name : string) (item : pyval) : Prop :=
  exists d, item = PDict d /\ d !! "instance" = Some (PStr instance_name).

(** [item] is a record that names another instance: it has an
    ["instance"] field and the field differs from [instance_name]. *)
Definition other_record (instance_name : string) (item : pyval) : Prop :=
  exists v, getitem item "instance" = Ok v /\ eq_str v instance_name = false.

(** The four fields [ansible_connection_options] reads, in the order it
    reads them. *)
Definition connection_fields : list string :=
  ["user"; "address"; "port"; "identity_file"].

(** The keys of the mapping [ansible_connection_options] builds. *)
Definition connection_keys : gset string :=
  {[ "ansible_user"; "ansible_host"; "ansible_port";
     "ansible_private_key_file"; "connection"; "ansible_ssh_common_args" ]}.

(** [item] is a mapping with an ["instance"] field, whatever it holds. *)
Definition has_instance (item : pyval) : Prop :=
  exists d v, item = PDict d /\ d !! "instance" = Some v.

(** The value [name] holds after the calls [ops] on a driver whose name
    was [current]: the last value assigned, if any. *)
Fixpoint assigned_name (ops : list operation) (current : string) : string :=
  match ops with
  | [] => current
  | OpNameSetter value :: rest => assigned_name rest value
  | _ :: rest => assigned_name rest current
  end.

(** The replacement fields of the login template, in the order they
    occur in it. *)
Definition template_fields : list string :=
  ["address"; "user"; "port"; "identity_file"].

(** The results of a sequence of calls made one after the other on the
    same driver object, each on the machine as it is when the call is
    made: the disk, the search path and the install location may change
    from one call to the next. *)
Fixpoint calls_on (steps : list (operation * host)) (self : Vagrant)
  : list (result pyval) :=
  match steps with
  | [] => []
  | (op, h) :: rest =>
      let '(r, self') := call op self h in
      r :: calls_on rest self'
  end.

(** Two machines show the driver the same thing: the same instance-config
    file (or none on both), the same answer of [which("vagrant")] and
    the same install location. *)
Definition same_view (cfg : config) (h h' : host) : Prop :=
  files h !! instance_config cfg = files h' !! instance_config cfg
  /\ which h "vagrant" = which h' "vagrant"
  /\ module_dir h = module_dir h'.

(** ** A sample scenario *)

Module Sample.

Definition cfg : config := {|
  ephemeral_directory := "/cache/molecule/role/default";
  inventory_file := "/cache/molecule/role/default/inventory/ansible_inventory.yml";
  instance_config := "/cache/molecule/role/default/instance_config.yml";
  ssh_connection_options := ["-o Foo=bar"];
  base_ssh_connection_options := ["-o ControlMaster=auto"]
|}.

Definition driver : Vagrant := __init__ cfg.

(** The record of the instance [i1]. *)
Definition i1 : gmap string pyval :=
  {[ "instance" := PStr "i1";
     "user" := PStr "u";
     "address" := PStr "1.2.3.4";
     "port" := PInt 22;
     "identity_file" := PStr "/key" ]}.

(** A second record that names [i1] again, and a record of [i0]. *)
Definition i1_again : gmap string pyval :=
  {[ "instance" := PStr "i1";
     "user" := PStr "root";
     "address" := PStr "5.6.7.8";
     "port" := PInt 2222;
     "identity_file" := PStr "/other" ]}.

Definition i0 : gmap string pyval :=
  {[ "instance" := PStr "i0";
     "user" := PStr "v";
     "address" := PStr "1.2.3.3";
     "port" := PInt 22;
     "identity_file" := PStr "/key0" ]}.

(** A record of [i1] without its [port]. *)
Definition i1_no_port : gmap string pyval :=
  {[ "instance" := PStr "i1";
     "user" := PStr "u";
     "address" := PStr "1.2.3.4";
     "identity_file" := PStr "/key" ]}.

Definition path_of (cmd : string) : option string :=
  if String.eqb cmd "vagrant" then Some "/usr/bin/vagrant" else None.

(** A machine whose instance-config file holds [items]. *)
Definition provisioned (items : list pyval) : host := {|
  files := {[ instance_config cfg := PList items ]};
  which := path_of;
  module_dir := "/site-packages/molecule_plugins/vagrant"
|}.

(** A machine without instance-config file and without [vagrant]. *)
Definition bare : host := {|
  files := ∅;
  which := fun _ => None;
  module_dir := "/site-packages/molecule_plugins/vagrant"
|}.

End Sample.

(** * Properties *)

(** ** The lookup of a record *)

Section Lookup.

Variable instance_name : string.

Lemma eq_str_true v : eq_str v instance_name = true <-> v = PStr instance_name.
Proof.
  destruct v; simpl; try (split; [discriminate | congruence]).
  rewrite String.eqb_eq. split; congruence.
Qed.

Lemma getitem_Ok item key v :
  getitem item key = Ok v <-> exists d, item = PDict d /\ d !! key = Some v.
Proof.
  split.
  - destruct item; simpl; try discriminate.
    destruct (d !! key) eqn:E; [|discriminate].
    intros [= ->]. eauto.
  - intros (d & -> & E). simpl. by rewrite E.
Qed.

Lemma record_of_other item :
  record_of instance_name item -> other_record instance_name item -> False.
Proof.
  intros (d & -> & Hd) (v & Hv & Hne). simpl in Hv. rewrite Hd in Hv.
  injection Hv as <-. simpl in Hne. by rewrite String.eqb_refl in Hne.
Qed.

Lemma next_matching_here d rest :
  d !! "instance" = Some (PStr instance_name) ->
  next_matching (PDict d :: rest) instance_name = Ok (PDict d).
Proof. intros Hd. simpl. rewrite Hd. simpl. by rewrite String.eqb_refl. Qed.

Lemma next_matching_skip item rest :
  other_record instance_name item ->
  next_matching (item :: rest) instance_name = next_matching rest instance_name.
Proof. intros (v & Hv & Hne). simpl. rewrite Hv. simpl. by rewrite Hne. Qed.

Lemma next_matching_app pre rest :
  Forall (other_record instance_name) pre ->
  next_matching (pre ++ rest) instance_name = next_matching rest instance_name.
Proof.
  induction 1 as [|item pre Hitem _ IH]; [done|].
  rewrite <- app_comm_cons, next_matching_skip; auto.
Qed.

Lemma next_matching_exhausted items :
  Forall (other_record instance_name) items ->
  next_matching items instance_name = Raise StopIteration.
Proof.
  intros H. rewrite <- (app_nil_r items). by rewrite next_matching_app.
Qed.

(** Whatever [next] returns is a record of the requested instance, taken
    from the list. *)
Lemma next_matching_Ok items r :
  next_matching items instance_name = Ok r ->
  r ∈ items /\ record_of instance_name r.
Proof.
  induction items as [|item rest IH]; simpl; [discriminate|].
  destruct (getitem item "instance") as [v|e] eqn:Hv; simpl; [|discriminate].
  destruct (eq_str v instance_name) eqn:Hm.
  - intros [= <-]. split; [left|].
    apply getitem_Ok in Hv as (d & -> & Hd). apply eq_str_true in Hm as ->.
    by exists d.
  - intros H. destruct (IH H). split; [by right | done].
Qed.

Lemma next_matching_no_record items :
  Forall (fun item => ~ record_of instance_name item) items ->
  raises (next_matching items instance_name).
Proof.
  intros Hall. destruct (next_matching items instance_name) as [r|e] eqn:E.
  - apply next_matching_Ok in E as [Hin Hr].
    rewrite Forall_forall in Hall. destruct (Hall r Hin Hr).
  - by exists e.
Qed.

End Lookup.

(** Reading a file that holds a list yields the items of the list. *)
Lemma load_list h path items :
  files h !! path = Some (PList items) ->
  safe_load_file h path ≫= iter = Ok items.
Proof.
  intros Hf. unfold safe_load_file. rewrite Hf.
  destruct items; simpl; [|done].
  by rewrite map_to_list_empty.
Qed.

Lemma load_absent h path :
  files h !! path = None -> safe_load_file h path = Raise OSError.
Proof. intros Hf. unfold safe_load_file. by rewrite Hf. Qed.

Lemma get_instance_config_list self h instance_name items :
  files h !! instance_config (_config self) = Some (PList items) ->
  _get_instance_config self h instance_name = next_matching items instance_name.
Proof.
  intros Hf. apply load_list in Hf. unfold _get_instance_config.
  destruct (safe_load_file h (instance_config (_config self))) as [v|e];
    simpl in *; [|discriminate].
  by rewrite Hf.
Qed.

Lemma get_instance_config_absent self h instance_name :
  files h !! instance_config (_config self) = None ->
  _get_instance_config self h instance_name = Raise OSError.
Proof.
  intros Hf. unfold _get_instance_config. by rewrite load_absent.
Qed.

(** ** A record of the instance is in the file *)

(** The dict display raises nothing but a [KeyError] on a mapping. *)
Lemma connection_mapping_dict self d :
  is_Ok (connection_mapping self (PDict d)) \/
  exists key, key ∈ connection_fields /\
    connection_mapping self (PDict d) = Raise (KeyError key).
Proof.
  unfold connection_mapping, connection_fields. simpl.
  destruct (d !! "user"); simpl; [|right; eexists; split; [|done]; set_solver].
  destruct (d !! "address"); simpl; [|right; eexists; split; [|done]; set_solver].
  destruct (d !! "port"); simpl; [|right; eexists; split; [|done]; set_solver].
  destruct (d !! "identity_file"); simpl;
    [|right; eexists; split; [|done]; set_solver].
  left. by eexists.
Qed.

(** Merging a record of the instance into [{"instance": instance_name}]
    gives the record back. *)
Lemma merge_instance instance_name (d : gmap string pyval) :
  d !! "instance" = Some (PStr instance_name) ->
  merge_dicts {[ "instance" := PStr instance_name ]} d = d.
Proof.
  intros Hd. apply map_eq. intros k. unfold merge_dicts.
  rewrite lookup_union, map_lookup_imap.
  destruct (decide (k = "instance")) as [->|Hk].
  - rewrite Hd, lookup_singleton_eq. simpl. done.
  - rewrite lookup_singleton_ne by done.
    destruct (d !! k); simpl; done.
Qed.

Section Found.

Variables (self : Vagrant) (h : host) (instance_name : string).
Variables (pre post : list pyval) (d : gmap string pyval).

Hypothesis Hfile :
  files h !! instance_config (_config self)
  = Some (PList (pre ++ PDict d :: post)).
Hypothesis Hpre : Forall (other_record instance_name) pre.
Hypothesis Hinstance : d !! "instance" = Some (PStr instance_name).

Lemma found_record :
  _get_instance_config self h instance_name = Ok (PDict d).
Proof.
  rewrite (get_instance_config_list _ _ _ _ Hfile).
  rewrite next_matching_app by done. by apply next_matching_here.
Qed.

Lemma found_login_options :
  login_options self h instance_name
  = Ok (merge_dicts {[ "instance" := PStr instance_name ]} d).
Proof. unfold login_options. by rewrite found_record. Qed.

Lemma found_connection_options :
  ansible_connection_options self h instance_name
  = connection_mapping self (PDict d).
Proof.
  unfold ansible_connection_options, connection_options_of.
  rewrite found_record. simpl.
  destruct (connection_mapping_dict self d) as [[m ->]|(key & _ & ->)]; done.
Qed.

End Found.

(** C1. When the instance-config file holds a record of the requested
    instance (the first one, [d], after records of other instances) and
    the record has the fields [user], [address], [port] and
    [identity_file], [ansible_connection_options] returns the mapping
    of [ansible_user], [ansible_host], [ansible_port] and
    [ansible_private_key_file] to these fields as they are, of
    [connection] to [ssh] and of [ansible_ssh_common_args] to the joined
    SSH options, and the mapping has no other key. *)
Theorem ansible_connection_options_found
    (self : Vagrant) (h : host) (instance_name : string)
    (pre post : list pyval) (d : gmap string pyval)
    (user address port identity_file : pyval) :
  files h !! instance_config (_config self)
    = Some (PList (pre ++ PDict d :: post)) ->
  Forall (other_record instance_name) pre ->
  d !! "instance" = Some (PStr instance_name) ->
  d !! "user" = Some user ->
  d !! "address" = Some address ->
  d !! "port" = Some port ->
  d !! "identity_file" = Some identity_file ->
  exists m : gmap string pyval,
    ansible_connection_options self h instance_name = Ok m
    /\ m = {[ "ansible_user" := user;
              "ansible_host" := address;
              "ansible_port" := port;
              "ansible_private_key_file" := identity_file;
              "connection" := PStr "ssh";
              "ansible_ssh_common_args" :=
                PStr (join " " (ssh_connection_options (_config self))) ]}
    /\ dom m = connection_keys.
Proof.
  intros Hfile Hpre Hinst Hu Ha Hp Hi. eexists. split; [|split; [reflexivity|]].
  - rewrite (found_connection_options _ _ _ _ _ _ Hfile Hpre Hinst).
    unfold connection_mapping. simpl. rewrite Hu, Ha, Hp, Hi. reflexivity.
  - unfold connection_keys. rewrite !dom_insert_L, dom_singleton_L. set_solver.
Qed.

Lemma ansible_connection_options_found_witness :
  ansible_connection_options Sample.driver (Sample.provisioned [PDict Sample.i1]) "i1"
  = Ok {[ "ansible_user" := PStr "u";
          "ansible_host" := PStr "1.2.3.4";
          "ansible_port" := PInt 22;
          "ansible_private_key_file" := PStr "/key";
          "connection" := PStr "ssh";
          "ansible_ssh_common_args" := PStr "-o Foo=bar" ]}.
Proof.
  destruct (ansible_connection_options_found Sample.driver
              (Sample.provisioned [PDict Sample.i1]) "i1" [] [] Sample.i1
              (PStr "u") (PStr "1.2.3.4") (PInt 22) (PStr "/key"))
    as (m & Hm & -> & _);
    [reflexivity | constructor | reflexivity .. | exact Hm].
Defined.

(** ** No record of the instance, or no file *)

(** C2. When the instance-config file is not on disk, or holds records
    none of which names the requested instance,
    [ansible_connection_options] returns the empty mapping; it does not
    raise. *)
Theorem ansible_connection_options_not_ready
    (self : Vagrant) (h : host) (instance_name : string) :
  files h !! instance_config (_config self) = None
  \/ (exists items,
        files h !! instance_config (_config self) = Some (PList items)
        /\ Forall (other_record instance_name) items) ->
  ansible_connection_options self h instance_name = Ok ∅.
Proof.
  unfold ansible_connection_options, connection_options_of.
  intros [Hf|(items & Hf & Hitems)].
  - by rewrite get_instance_config_absent.
  - rewrite (get_instance_config_list _ _ _ _ Hf).
    by rewrite next_matching_exhausted.
Qed.

Lemma ansible_connection_options_not_ready_witness :
  ansible_connection_options Sample.driver Sample.bare "i1" = Ok ∅
  /\ ansible_connection_options Sample.driver
       (Sample.provisioned [PDict Sample.i1]) "i2" = Ok ∅.
Proof.
  split.
  - apply ansible_connection_options_not_ready. left. reflexivity.
  - apply ansible_connection_options_not_ready. right.
    exists [PDict Sample.i1]. split; [reflexivity|].
    repeat constructor. exists (PStr "i1"). split; reflexivity.
Defined.

(** C3. When the instance-config file is not on disk, or holds no record
    of the requested instance, [login_options] raises: the [OSError] of
    the missing file, the [StopIteration] of the exhausted search when
    every record names another instance; it returns no mapping, empty or
    not. *)
Theorem login_options_propagates
    (self : Vagrant) (h : host) (instance_name : string) :
  files h !! instance_config (_config self) = None
  \/ (exists items,
        files h !! instance_config (_config self) = Some (PList items)
        /\ Forall (fun item => ~ record_of instance_name item) items) ->
  exists e,
    login_options self h instance_name = Raise e
    /\ (forall m, login_options self h instance_name <> Ok m)
    /\ (files h !! instance_config (_config self) = None -> e = OSError)
    /\ (forall items,
          files h !! instance_config (_config self) = Some (PList items) ->
          Forall (other_record instance_name) items ->
          e = StopIteration).
Proof.
  intros Hcase.
  assert (exists e, _get_instance_config self h instance_name = Raise e
            /\ (files h !! instance_config (_config self) = None -> e = OSError)
            /\ (forall items,
                  files h !! instance_config (_config self)
                    = Some (PList items) ->
                  Forall (other_record instance_name) items ->
                  e = StopIteration)) as (e & He & Habsent & Hother).
  { destruct Hcase as [Hf|(items & Hf & Hitems)].
    - exists OSError. split; [by apply get_instance_config_absent|].
      split; [done|]. intros items Hf'. congruence.
    - destruct (next_matching_no_record instance_name items Hitems) as [e He].
      exists e. rewrite (get_instance_config_list _ _ _ _ Hf).
      split; [done|]. split; [congruence|].
      intros items' Hf' Hall. assert (items' = items) as -> by congruence.
      rewrite next_matching_exhausted in He by done. congruence. }
  exists e. unfold login_options. rewrite He. simpl.
  repeat split; [discriminate | done | done].
Qed.

Lemma login_options_propagates_witness :
  login_options Sample.driver Sample.bare "i1" = Raise OSError
  /\ login_options Sample.driver
       (Sample.provisioned [PDict Sample.i1]) "i2" = Raise StopIteration.
Proof.
  split.
  - destruct (login_options_propagates Sample.driver Sample.bare "i1")
      as (e & He & _ & Habsent & _); [left; reflexivity|].
    rewrite He. f_equal. apply Habsent. reflexivity.
  - assert (Forall (other_record "i2") [PDict Sample.i1]) as Hother.
    { repeat constructor. exists (PStr "i1"). split; reflexivity. }
    destruct (login_options_propagates Sample.driver
                (Sample.provisioned [PDict Sample.i1]) "i2")
      as (e & He & _ & _ & Hstop).
    + right. exists [PDict Sample.i1]. split; [reflexivity|].
      eapply Forall_impl; [exact Hother|].
      intros item Ho Hr. exact (record_of_other _ _ Hr Ho).
    + rewrite He. f_equal. apply (Hstop [PDict Sample.i1]); [reflexivity|].
      exact Hother.
Defined.

(** ** What the callers build from the record *)

(** C4. When the instance-config file holds a record [d] of the
    requested instance, [login_options] returns the merge of
    [{"instance": instance_name}] with [d]: the result maps [instance]
    to the instance name and has every field of the record, and nothing
    else. *)
Theorem login_options_found
    (self : Vagrant) (h : host) (instance_name : string)
    (pre post : list pyval) (d : gmap string pyval) :
  files h !! instance_config (_config self)
    = Some (PList (pre ++ PDict d :: post)) ->
  Forall (other_record instance_name) pre ->
  d !! "instance" = Some (PStr instance_name) ->
  exists m : gmap string pyval,
    login_options self h instance_name = Ok m
    /\ m = merge_dicts {[ "instance" := PStr instance_name ]} d
    /\ m !! "instance" = Some (PStr instance_name)
    /\ (forall key v, d !! key = Some v -> m !! key = Some v)
    /\ dom m = dom d.
Proof.
  intros Hfile Hpre Hinst. eexists. split; [|split; [reflexivity|]].
  - apply (found_login_options _ _ _ _ _ _ Hfile Hpre Hinst).
  - rewrite merge_instance by done. auto.
Qed.

Lemma login_options_found_witness :
  login_options Sample.driver (Sample.provisioned [PDict Sample.i1]) "i1"
  = Ok {[ "instance" := PStr "i1";
          "user" := PStr "u";
          "address" := PStr "1.2.3.4";
          "port" := PInt 22;
          "identity_file" := PStr "/key" ]}.
Proof.
  destruct (login_options_found Sample.driver
              (Sample.provisioned [PDict Sample.i1]) "i1" [] [] Sample.i1)
    as (m & Hm & -> & _);
    [reflexivity | constructor | reflexivity |].
  rewrite Hm. vm_compute. reflexivity.
Defined.

(** C5. The lookup returns the first record of the requested instance:
    when [d] names the instance and the records before it name other
    instances, [_get_instance_config] returns [d] whatever follows it in
    the file, further records of the same instance included, and both
    [login_options] and [ansible_connection_options] are built from
    [d]. *)
Theorem first_record_wins
    (self : Vagrant) (h : host) (instance_name : string)
    (pre post : list pyval) (d : gmap string pyval) :
  files h !! instance_config (_config self)
    = Some (PList (pre ++ PDict d :: post)) ->
  Forall (other_record instance_name) pre ->
  d !! "instance" = Some (PStr instance_name) ->
  _get_instance_config self h instance_name = Ok (PDict d)
  /\ login_options self h instance_name
     = Ok (merge_dicts {[ "instance" := PStr instance_name ]} d)
  /\ ansible_connection_options self h instance_name
     = connection_mapping self (PDict d).
Proof.
  intros Hfile Hpre Hinst. split; [|split].
  - apply (found_record _ _ _ _ _ _ Hfile Hpre Hinst).
  - apply (found_login_options _ _ _ _ _ _ Hfile Hpre Hinst).
  - apply (found_connection_options _ _ _ _ _ _ Hfile Hpre Hinst).
Qed.

Lemma first_record_wins_witness :
  let h := Sample.provisioned
             [PDict Sample.i0; PDict Sample.i1; PDict Sample.i1_again] in
  _get_instance_config Sample.driver h "i1" = Ok (PDict Sample.i1)
  /\ login_options Sample.driver h "i1"
     = Ok (merge_dicts {[ "instance" := PStr "i1" ]} Sample.i1)
  /\ ansible_connection_options Sample.driver h "i1"
     = connection_mapping Sample.driver (PDict Sample.i1).
Proof.
  apply (first_record_wins Sample.driver _ "i1"
           [PDict Sample.i0] [PDict Sample.i1_again] Sample.i1).
  - reflexivity.
  - repeat constructor. exists (PStr "i0"). split; reflexivity.
  - reflexivity.
Defined.

(** C10. When the record [d] found for the requested instance lacks one
    of the fields [user], [address], [port], [identity_file],
    [ansible_connection_options] raises the [KeyError] of the first
    field that is missing, in the order they are read; it returns no
    mapping, so not the empty one either. *)
Theorem ansible_connection_options_missing_field
    (self : Vagrant) (h : host) (instance_name : string)
    (pre post : list pyval) (d : gmap string pyval) :
  files h !! instance_config (_config self)
    = Some (PList (pre ++ PDict d :: post)) ->
  Forall (other_record instance_name) pre ->
  d !! "instance" = Some (PStr instance_name) ->
  (exists key, key ∈ connection_fields /\ d !! key = None) ->
  exists before key after,
    connection_fields = (before ++ key :: after)%list
    /\ Forall (fun k => is_Some (d !! k)) before
    /\ d !! key = None
    /\ ansible_connection_options self h instance_name = Raise (KeyError key)
    /\ forall m, ansible_connection_options self h instance_name <> Ok m.
Proof.
  intros Hfile Hpre Hinst (key & Hkey & Hnone).
  rewrite (found_connection_options _ _ _ _ _ _ Hfile Hpre Hinst).
  unfold connection_mapping, connection_fields in *. simpl.
  destruct (d !! "user") as [u|] eqn:Hu; simpl.
  2:{ exists [], "user", ["address"; "port"; "identity_file"].
      split_and!; [done | constructor | done | done | discriminate]. }
  destruct (d !! "address") as [a|] eqn:Ha; simpl.
  2:{ exists ["user"], "address", ["port"; "identity_file"].
      split_and!; [done | | done | done | discriminate].
      repeat constructor; by rewrite Hu. }
  destruct (d !! "port") as [p|] eqn:Hp; simpl.
  2:{ exists ["user"; "address"], "port", ["identity_file"].
      split_and!; [done | | done | done | discriminate].
      repeat constructor; by rewrite ?Hu, ?Ha. }
  destruct (d !! "identity_file") as [i|] eqn:Hi; simpl.
  2:{ exists ["user"; "address"; "port"], "identity_file", [].
      split_and!; [done | | done | done | discriminate].
      repeat constructor; by rewrite ?Hu, ?Ha, ?Hp. }
  exfalso. set_unfold in Hkey.
  destruct Hkey as [->|[->|[->|[->|[]]]]]; congruence.
Qed.

Lemma ansible_connection_options_missing_field_witness :
  let h := Sample.provisioned [PDict Sample.i1_no_port] in
  exists before key after,
    connection_fields = (before ++ key :: after)%list
    /\ Forall (fun k => is_Some (Sample.i1_no_port !! k)) before
    /\ Sample.i1_no_port !! key = None
    /\ ansible_connection_options Sample.driver h "i1" = Raise (KeyError key)
    /\ forall m, ansible_connection_options Sample.driver h "i1" <> Ok m.
Proof.
  apply (ansible_connection_options_missing_field Sample.driver
           (Sample.provisioned [PDict Sample.i1_no_port]) "i1" [] []).
  - reflexivity.
  - constructor.
  - reflexivity.
  - exists "port". split; [|reflexivity].
    unfold connection_fields. set_solver.
Defined.

(** ** Paths and the login command *)

Lemma os_path_join_relative a b :
  startswith b "/" = false ->
  exists sep,
    (sep = "" \/ sep = "/")
    /\ os_path_join a b = a ++ sep ++ b
    /\ (a <> "" -> endswith_char a "/" = false -> sep = "/").
Proof.
  intros Hb. unfold os_path_join. rewrite Hb.
  destruct (String.eqb a "") eqn:Ha; simpl.
  - apply String.eqb_eq in Ha. exists "". split_and!; [by left | done | done].
  - destruct (endswith_char a "/") eqn:He.
    + exists "". split_and!; [by left | done | done].
    + exists "/". split_and!; [by right | done | done].
Qed.

(** C6. Whatever the configuration, [default_safe_files] lists the path
    of the Vagrantfile and the path of the instance-config file, and the
    path of the Vagrantfile is the ephemeral directory joined with
    [Vagrantfile]: the directory, a [/] unless the directory is empty or
    ends with one, then [Vagrantfile]. *)
Theorem default_safe_files_keeps (self : Vagrant) :
  vagrantfile self ∈ default_safe_files self
  /\ instance_config (_config self) ∈ default_safe_files self
  /\ vagrantfile self
     = os_path_join (ephemeral_directory (_config self)) "Vagrantfile"
  /\ exists sep,
       (sep = "" \/ sep = "/")
       /\ vagrantfile self
          = ephemeral_directory (_config self) ++ sep ++ "Vagrantfile"
       /\ (ephemeral_directory (_config self) <> "" ->
           endswith_char (ephemeral_directory (_config self)) "/" = false ->
           sep = "/").
Proof.
  split_and!.
  - unfold default_safe_files. set_solver.
  - unfold default_safe_files. set_solver.
  - reflexivity.
  - unfold vagrantfile. by apply os_path_join_relative.
Qed.

Lemma format_from_literal s kwargs :
  Format.brace_free s = true -> Format.format_from Format.Lit s kwargs = Ok s.
Proof.
  induction s as [|c s IH]; simpl; [done|].
  destruct (Ascii.eqb c "{"); [done|]. destruct (Ascii.eqb c "}"); [done|].
  simpl. intros H. by rewrite IH.
Qed.

Local Arguments String.append !_ _ / : simpl nomatch.

(** Formatting the template fills the four fields in the order
    address, user, port, identity file and leaves options without braces
    as they are. *)
Lemma login_cmd_template_format self kwargs address user port identity_file :
  kwargs !! "address" = Some address ->
  kwargs !! "user" = Some user ->
  kwargs !! "port" = Some port ->
  kwargs !! "identity_file" = Some identity_file ->
  Format.brace_free (join " " (ssh_connection_options (_config self))) = true ->
  Format.format (login_cmd_template self) kwargs
  = Ok ("ssh " ++ Format.py_str address
        ++ " -l " ++ Format.py_str user
        ++ " -p " ++ Format.py_str port
        ++ " -i " ++ Format.py_str identity_file
        ++ " " ++ join " " (ssh_connection_options (_config self))).
Proof.
  intros Ha Hu Hp Hi Ho. unfold Format.format, login_cmd_template. simpl.
  rewrite Ha, Hu, Hp, Hi. simpl.
  rewrite (format_from_literal _ _ Ho). reflexivity.
Qed.

(** C7. With the single SSH option [-o Foo=bar] configured, the template
    of [login_cmd_template] formatted with the address [1.2.3.4], the
    user [vagrant], the port [22] and the identity file [/k] is the
    command [ssh 1.2.3.4 -l vagrant -p 22 -i /k -o Foo=bar]: the
    address, the user after [-l], the port after [-p], the identity file
    after [-i], then the option as it is. *)
Theorem login_cmd_template_sample (self : Vagrant) :
  ssh_connection_options (_config self) = ["-o Foo=bar"] ->
  Format.format (login_cmd_template self)
    {[ "address" := Format.FStr "1.2.3.4";
       "user" := Format.FStr "vagrant";
       "port" := Format.FInt 22;
       "identity_file" := Format.FStr "/k" ]}
  = Ok "ssh 1.2.3.4 -l vagrant -p 22 -i /k -o Foo=bar".
Proof.
  intros Hopts.
  rewrite (login_cmd_template_format self _ (Format.FStr "1.2.3.4")
             (Format.FStr "vagrant") (Format.FInt 22) (Format.FStr "/k"));
    try reflexivity.
  - by rewrite Hopts.
  - by rewrite Hopts.
Qed.

Lemma login_cmd_template_sample_witness :
  Format.format (login_cmd_template Sample.driver)
    {[ "address" := Format.FStr "1.2.3.4";
       "user" := Format.FStr "vagrant";
       "port" := Format.FInt 22;
       "identity_file" := Format.FStr "/k" ]}
  = Ok "ssh 1.2.3.4 -l vagrant -p 22 -i /k -o Foo=bar".
Proof. apply login_cmd_template_sample. reflexivity. Defined.

(** ** The pre-flight check *)

(** C8. [sanity_checks] ends the process with the message
    [vagrant executable was not found!] when the search of [vagrant] on
    the execution path finds nothing, returns normally when the search
    finds the executable, and looks at nothing else on the machine. *)
Theorem sanity_checks_vagrant (h : host) :
  (which h "vagrant" = None ->
   sanity_checks h = Raise (SystemExit "vagrant executable was not found!"))
  /\ (forall path, which h "vagrant" = Some path -> path <> "" ->
      sanity_checks h = Ok tt)
  /\ (forall h', which h' "vagrant" = which h "vagrant" ->
      sanity_checks h' = sanity_checks h).
Proof.
  unfold sanity_checks. split_and!.
  - by intros ->.
  - intros path -> Hpath. simpl.
    destruct (String.eqb_spec path ""); [done|reflexivity].
  - by intros h' ->.
Qed.

Lemma sanity_checks_vagrant_witness :
  sanity_checks Sample.bare
  = Raise (SystemExit "vagrant executable was not found!")
  /\ sanity_checks (Sample.provisioned []) = Ok tt.
Proof.
  split.
  - apply (sanity_checks_vagrant Sample.bare). reflexivity.
  - apply (proj1 (proj2 (sanity_checks_vagrant (Sample.provisioned [])))
             "/usr/bin/vagrant"); [reflexivity | discriminate].
Defined.

(** ** Repeated calls *)

(** No operation changes the configuration of the driver object. *)
Lemma call_config op self h : _config (call op self h).2 = _config self.
Proof. by destruct op. Qed.

(** But for [name], the result of an operation is a function of the
    configuration, the machine and the arguments. *)
Lemma call_result_config op self self' h :
  op <> OpName ->
  _config self = _config self' ->
  (call op self h).1 = (call op self' h).1.
Proof.
  intros Hop Hcfg. destruct op; try done; simpl;
    unfold testinfra_options, login_cmd_template, default_safe_files,
      default_ssh_connection_options, vagrantfile, login_options,
      ansible_connection_options, connection_options_of, connection_mapping,
      _get_instance_config;
    by rewrite Hcfg.
Qed.

(** Each result of a sequence of calls is the result of its call on a
    driver object that has the configuration of the initial one. *)
Lemma calls_lookup ops self h i op :
  ops !! i = Some op ->
  exists self',
    _config self' = _config self
    /\ calls ops self h !! i = Some (call op self' h).1.
Proof.
  revert self i. induction ops as [|o ops IH]; intros self i Hi; [done|].
  simpl. destruct (call o self h) as [r self1] eqn:Hcall.
  destruct i as [|i]; simpl in *.
  - injection Hi as ->. exists self. by rewrite Hcall.
  - destruct (IH self1 i Hi) as (self' & Hcfg & Hres).
    exists self'. split; [|done].
    rewrite Hcfg. change self1 with (r, self1).2.
    rewrite <- Hcall. apply call_config.
Qed.

(** On a machine that stays as it is, the results are those of the same
    calls on a freshly built driver, so equal calls have equal results. *)
Lemma calls_fixed_machine
    (self : Vagrant) (h : host) (ops : list operation)
    (i j : nat) (op : operation) :
  op <> OpName ->
  ops !! i = Some op ->
  ops !! j = Some op ->
  calls ops self h !! i = Some (call op (__init__ (_config self)) h).1
  /\ calls ops self h !! i = calls ops self h !! j.
Proof.
  intros Hop Hi Hj.
  destruct (calls_lookup ops self h i op Hi) as (si & Hsi & ->).
  destruct (calls_lookup ops self h j op Hj) as (sj & Hsj & ->).
  split; f_equal; apply call_result_config; try done.
  congruence.
Qed.

(** A sequence of calls on one machine is a sequence of calls each made
    on that machine. *)
Lemma calls_calls_on ops self h :
  calls ops self h = calls_on ((fun op => (op, h)) <$> ops) self.
Proof.
  revert self. induction ops as [|op ops IH]; intros self; [done|].
  simpl. destruct (call op self h) as [r self1]. by rewrite IH.
Qed.

(** Each result of a sequence of calls is the result of its call, on the
    machine of that call, on a driver object that has the configuration
    of the initial one. *)
Lemma calls_on_lookup steps self i op h :
  steps !! i = Some (op, h) ->
  exists self',
    _config self' = _config self
    /\ calls_on steps self !! i = Some (call op self' h).1.
Proof.
  revert self i. induction steps as [|[o ho] steps IH]; intros self i Hi;
    [done|].
  simpl. destruct (call o self ho) as [r self1] eqn:Hcall.
  destruct i as [|i]; simpl in *.
  - injection Hi as -> ->. exists self. by rewrite Hcall.
  - destruct (IH self1 i Hi) as (self' & Hcfg & Hres).
    exists self'. split; [|done].
    rewrite Hcfg. change self1 with (r, self1).2.
    rewrite <- Hcall. apply call_config.
Qed.

(** The result of a call depends on the machine through what the driver
    reads of it only. *)
Lemma call_result_view op self h h' :
  same_view (_config self) h h' ->
  (call op self h).1 = (call op self h').1.
Proof.
  intros (Hfile & Hwhich & Hdir). destruct op; simpl; try done.
  - unfold login_options, _get_instance_config, safe_load_file.
    by rewrite Hfile.
  - unfold ansible_connection_options, connection_options_of,
      _get_instance_config, safe_load_file.
    by rewrite Hfile.
  - unfold sanity_checks. by rewrite Hwhich.
  - unfold template_dir. by rewrite Hdir.
  - unfold modules_dir. by rewrite Hdir.
Qed.

(** C9 (as amended). In a sequence of calls on one driver object, the
    machine being free to change between the calls, every call of an
    operation other than reading [name] returns what the same call
    returns on a driver freshly built from the configuration, on the
    machine as it is at that call: the file is read again at each call
    and nothing is kept from an earlier one.  So two calls of the same
    operation with the same instance name return identical results
    whenever the instance-config file, the search of [vagrant] and the
    install location are the same at both calls. *)
Theorem calls_stateless
    (self : Vagrant) (steps : list (operation * host))
    (i j : nat) (op : operation) (hi hj : host) :
  op <> OpName ->
  steps !! i = Some (op, hi) ->
  steps !! j = Some (op, hj) ->
  calls_on steps self !! i = Some (call op (__init__ (_config self)) hi).1
  /\ calls_on steps self !! j = Some (call op (__init__ (_config self)) hj).1
  /\ (same_view (_config self) hi hj ->
      calls_on steps self !! i = calls_on steps self !! j).
Proof.
  intros Hop Hi Hj.
  destruct (calls_on_lookup steps self i op hi Hi) as (si & Hsi & Hri).
  destruct (calls_on_lookup steps self j op hj Hj) as (sj & Hsj & Hrj).
  rewrite Hri, Hrj. split_and!.
  - f_equal. by apply call_result_config.
  - f_equal. by apply call_result_config.
  - intros Hview. f_equal.
    rewrite (call_result_config op si sj hi) by congruence.
    apply call_result_view. by rewrite Hsj.
Qed.

Lemma calls_stateless_witness :
  let before := Sample.bare in
  let after := Sample.provisioned [PDict Sample.i1] in
  let steps := [(OpLoginOptions "i1", before); (OpNameSetter "x", before);
                (OpLoginOptions "i1", after);
                (OpAnsibleConnectionOptions "i1", after);
                (OpLoginOptions "i1", after)] in
  calls_on steps Sample.driver !! 0 = Some (Raise OSError)
  /\ calls_on steps Sample.driver !! 2 = Some (Ok (PDict Sample.i1))
  /\ calls_on steps Sample.driver !! 2 = calls_on steps Sample.driver !! 4.
Proof.
  intros before after steps.
  destruct (calls_stateless Sample.driver steps 0 2 (OpLoginOptions "i1")
              before after) as (H0 & H2 & _);
    [discriminate | reflexivity | reflexivity |].
  destruct (calls_stateless Sample.driver steps 2 4 (OpLoginOptions "i1")
              after after) as (_ & _ & Hsame);
    [discriminate | reflexivity | reflexivity |].
  split_and!.
  - rewrite H0. vm_compute. reflexivity.
  - rewrite H2. vm_compute. reflexivity.
  - apply Hsame. by split_and!.
Defined.

(** C9 (as stated) fails for [name]: read before and after an assignment
    to it, on the same configuration and the same machine, it returns
    two different results. *)
Lemma calls_name_differs :
  let ops := [OpName; OpNameSetter "x"; OpName] in
  ops !! 0 = Some OpName
  /\ ops !! 2 = Some OpName
  /\ calls ops Sample.driver Sample.bare !! 0 = Some (Ok (PStr "vagrant"))
  /\ calls ops Sample.driver Sample.bare !! 2 = Some (Ok (PStr "x"))
  /\ calls ops Sample.driver Sample.bare !! 0
     <> calls ops Sample.driver Sample.bare !! 2.
Proof. split_and!; try reflexivity. discriminate. Qed.

(** ** Remarks on malformed files *)

(** The search tests the records in order, so a record without
    [instance] placed before the record of the instance ends both
    callers with a [KeyError] that neither catches: the properties above
    ask the records before the match to carry the field. *)
Example record_without_instance :
  let h := Sample.provisioned
             [PDict {[ "user" := PStr "u" ]}; PDict Sample.i1] in
  ansible_connection_options Sample.driver h "i1" = Raise (KeyError "instance")
  /\ login_options Sample.driver h "i1" = Raise (KeyError "instance").
Proof. split; reflexivity. Qed.

(** An item that is no mapping ends the search with a [TypeError]. *)
Example item_not_a_mapping :
  ansible_connection_options Sample.driver
    (Sample.provisioned [PStr "i1"]) "i1" = Raise TypeError.
Proof. reflexivity. Qed.

(** * Further properties of the lookup and of its two callers *)

Section Outcomes.

Variables (self : Vagrant) (h : host) (instance_name : string).

(** The search raises nothing but the exhaustion of the generator and
    the failure of [item["instance"]]. *)
Lemma next_matching_Raise items e :
  next_matching items instance_name = Raise e ->
  e = StopIteration \/ e = KeyError "instance" \/ e = TypeError.
Proof.
  induction items as [|item rest IH]; simpl.
  - intros [= <-]. by left.
  - destruct item; simpl; try (intros [= <-]; by right; right).
    destruct (d !! "instance") as [v|]; simpl.
    + destruct (eq_str v instance_name); [discriminate | exact IH].
    + intros [= <-]. right. by left.
Qed.

(** What the search returns is the first record of the instance, and
    the items before it are records of other instances. *)
Lemma next_matching_Ok_split items r :
  next_matching items instance_name = Ok r ->
  exists pre post d,
    r = PDict d
    /\ items = (pre ++ PDict d :: post)%list
    /\ Forall (other_record instance_name) pre
    /\ d !! "instance" = Some (PStr instance_name).
Proof.
  induction items as [|item rest IH]; simpl; [discriminate|].
  destruct (getitem item "instance") as [v|e] eqn:Hv; simpl; [|discriminate].
  destruct (eq_str v instance_name) eqn:Hm.
  - intros [= <-]. apply getitem_Ok in Hv as (d & -> & Hd).
    apply eq_str_true in Hm as ->. exists [], rest, d. by split_and!.
  - intros Hr. destruct (IH Hr) as (pre & post & d & -> & -> & Hpre & Hd).
    exists (item :: pre), post, d. split_and!; try done.
    constructor; [by exists v | done].
Qed.

Lemma get_instance_config_Raise e :
  _get_instance_config self h instance_name = Raise e ->
  e = OSError \/ e = StopIteration \/ e = KeyError "instance" \/ e = TypeError.
Proof.
  unfold _get_instance_config, safe_load_file.
  destruct (files h !! instance_config (_config self)) as [v|]; simpl.
  - destruct (iter (if truthy v then v else PDict ∅)) as [items|e'] eqn:Hit;
      simpl.
    + intros He. right. by apply (next_matching_Raise items).
    + intros [= <-]. right. right. right.
      destruct (truthy v); [destruct v|]; simpl in Hit; congruence.
  - intros [= <-]. by left.
Qed.

Lemma get_instance_config_Ok r :
  _get_instance_config self h instance_name = Ok r ->
  exists d, r = PDict d /\ d !! "instance" = Some (PStr instance_name).
Proof.
  unfold _get_instance_config.
  destruct (safe_load_file h (instance_config (_config self))) as [v|];
    simpl; [|discriminate].
  destruct (iter v) as [items|]; simpl; [|discriminate].
  intros Hr. apply next_matching_Ok_split in Hr as (_ & _ & d & -> & _ & _ & Hd).
  by exists d.
Qed.

(** [login_options] returns when the lookup does, and returns the record
    found. *)
Lemma login_options_Ok m :
  login_options self h instance_name = Ok m <->
  _get_instance_config self h instance_name = Ok (PDict m).
Proof.
  unfold login_options.
  destruct (_get_instance_config self h instance_name) as [r|e] eqn:Hr; simpl.
  - destruct (get_instance_config_Ok r Hr) as (d & -> & Hd). simpl.
    rewrite merge_instance by done. split; congruence.
  - split; discriminate.
Qed.

Lemma login_options_Raise e :
  login_options self h instance_name = Raise e <->
  _get_instance_config self h instance_name = Raise e.
Proof.
  unfold login_options.
  destruct (_get_instance_config self h instance_name) as [r|e'] eqn:Hr; simpl.
  - destruct (get_instance_config_Ok r Hr) as (d & -> & Hd). simpl.
    split; discriminate.
  - split; congruence.
Qed.

Lemma connection_mapping_Ok d m :
  connection_mapping self (PDict d) = Ok m ->
  dom m = connection_keys
  /\ m !! "ansible_user" = d !! "user"
  /\ m !! "ansible_host" = d !! "address"
  /\ m !! "ansible_port" = d !! "port"
  /\ m !! "ansible_private_key_file" = d !! "identity_file".
Proof.
  unfold connection_mapping. simpl.
  destruct (d !! "user"); simpl; [|discriminate].
  destruct (d !! "address"); simpl; [|discriminate].
  destruct (d !! "port"); simpl; [|discriminate].
  destruct (d !! "identity_file"); simpl; [|discriminate].
  intros [= <-]. split_and!; done.
Qed.

End Outcomes.

(** X1. Whatever the machine holds, [ansible_connection_options] ends in
    one of four ways: the empty mapping, a mapping with exactly the six
    connection keys, the [KeyError] of [instance] or of one of the four
    fields read, or a [TypeError]; it never lets a [StopIteration] or an
    [OSError] through. *)
Theorem ansible_connection_options_outcomes
    (self : Vagrant) (h : host) (instance_name : string) :
  (ansible_connection_options self h instance_name = Ok ∅
   \/ (exists m, ansible_connection_options self h instance_name = Ok m
                 /\ dom m = connection_keys)
   \/ (exists key, key ∈ "instance" :: connection_fields
                   /\ ansible_connection_options self h instance_name
                      = Raise (KeyError key))
   \/ ansible_connection_options self h instance_name = Raise TypeError)
  /\ ansible_connection_options self h instance_name <> Raise StopIteration
  /\ ansible_connection_options self h instance_name <> Raise OSError.
Proof.
  unfold ansible_connection_options, connection_options_of.
  destruct (_get_instance_config self h instance_name) as [r|e] eqn:Hr; simpl.
  - destruct (get_instance_config_Ok _ _ _ r Hr) as (d & -> & _).
    destruct (connection_mapping_dict self d) as [[m Hm]|(key & Hkey & Hm)];
      rewrite Hm.
    + split_and!; [|done..]. right. left. exists m. split; [done|].
      by apply (connection_mapping_Ok self d).
    + split_and!; [|done..]. right. right. left. exists key.
      split; [by constructor | done].
  - destruct (get_instance_config_Raise _ _ _ e Hr) as [->|[->|[->| ->]]].
    + split_and!; [by left | done..].
    + split_and!; [by left | done..].
    + split_and!; [|done..]. right. right. left. exists "instance".
      split; [by constructor | done].
    + split_and!; [|done..]. by right; right; right.
Qed.

(** X2. [ansible_connection_options] returns the empty mapping exactly
    when [login_options] raises [StopIteration] or [OSError]: the two
    failures it catches are the only way to an empty answer. *)
Theorem empty_options_iff_login_fails
    (self : Vagrant) (h : host) (instance_name : string) :
  ansible_connection_options self h instance_name = Ok ∅
  <-> login_options self h instance_name = Raise StopIteration
      \/ login_options self h instance_name = Raise OSError.
Proof.
  rewrite !login_options_Raise.
  unfold ansible_connection_options, connection_options_of.
  destruct (_get_instance_config self h instance_name) as [r|e] eqn:Hr; simpl.
  - destruct (get_instance_config_Ok _ _ _ r Hr) as (d & -> & _).
    split; [|intros [?|?]; discriminate].
    destruct (connection_mapping_dict self d) as [[m Hm]|(key & _ & Hm)];
      rewrite Hm; [|discriminate].
    intros [= ->]. apply connection_mapping_Ok in Hm as [Hdom _].
    rewrite dom_empty_L in Hdom. unfold connection_keys in Hdom. set_solver.
  - destruct e; split; try (by auto); try discriminate;
      intros [?|?]; congruence.
Qed.

(** X3. When [login_options] returns a mapping, the mapping names the
    requested instance and [ansible_connection_options] is computed from
    that same mapping: if it returns, its [ansible_user],
    [ansible_host], [ansible_port] and [ansible_private_key_file] are
    the [user], [address], [port] and [identity_file] of the login
    options, and it is not empty. *)
Theorem connection_options_agree_with_login
    (self : Vagrant) (h : host) (instance_name : string)
    (m : gmap string pyval) :
  login_options self h instance_name = Ok m ->
  m !! "instance" = Some (PStr instance_name)
  /\ ansible_connection_options self h instance_name
     = connection_mapping self (PDict m)
  /\ forall c, ansible_connection_options self h instance_name = Ok c ->
       c !! "ansible_user" = m !! "user"
       /\ c !! "ansible_host" = m !! "address"
       /\ c !! "ansible_port" = m !! "port"
       /\ c !! "ansible_private_key_file" = m !! "identity_file"
       /\ c <> ∅.
Proof.
  intros Hm. apply login_options_Ok in Hm.
  destruct (get_instance_config_Ok _ _ _ _ Hm) as (d & [= <-] & Hd).
  assert (ansible_connection_options self h instance_name
          = connection_mapping self (PDict m)) as Haco.
  { unfold ansible_connection_options, connection_options_of.
    rewrite Hm. simpl.
    destruct (connection_mapping_dict self m) as [[c ->]|(key & _ & ->)]; done. }
  split_and!; [done | done |].
  intros c Hc. rewrite Haco in Hc.
  apply connection_mapping_Ok in Hc as (Hdom & ? & ? & ? & ?).
  split_and!; try done.
  intros ->. rewrite dom_empty_L in Hdom. unfold connection_keys in Hdom.
  set_solver.
Qed.

Lemma connection_options_agree_with_login_witness :
  let h := Sample.provisioned [PDict Sample.i0; PDict Sample.i1] in
  Sample.i1 !! "instance" = Some (PStr "i1")
  /\ ansible_connection_options Sample.driver h "i1"
     = connection_mapping Sample.driver (PDict Sample.i1)
  /\ forall c, ansible_connection_options Sample.driver h "i1" = Ok c ->
       c !! "ansible_user" = Sample.i1 !! "user"
       /\ c !! "ansible_host" = Sample.i1 !! "address"
       /\ c !! "ansible_port" = Sample.i1 !! "port"
       /\ c !! "ansible_private_key_file" = Sample.i1 !! "identity_file"
       /\ c <> ∅.
Proof.
  apply (connection_options_agree_with_login Sample.driver
           (Sample.provisioned [PDict Sample.i0; PDict Sample.i1]) "i1").
  vm_compute. reflexivity.
Defined.

(** X4. Whenever [login_options] returns, over a file that holds a
    list, what it returns is a record of that list as it stands: the
    first one that names the instance, every item before it being a
    mapping whose [instance] field names something else. *)
Theorem login_options_returns_first_record
    (self : Vagrant) (h : host) (instance_name : string)
    (items : list pyval) (m : gmap string pyval) :
  files h !! instance_config (_config self) = Some (PList items) ->
  login_options self h instance_name = Ok m ->
  exists pre post,
    items = (pre ++ PDict m :: post)%list
    /\ Forall (other_record instance_name) pre
    /\ m !! "instance" = Some (PStr instance_name).
Proof.
  intros Hf Hm. apply login_options_Ok in Hm.
  rewrite (get_instance_config_list _ _ _ _ Hf) in Hm.
  apply next_matching_Ok_split in Hm as (pre & post & d & [= <-] & ? & ? & ?).
  by exists pre, post.
Qed.

Lemma login_options_returns_first_record_witness :
  exists pre post,
    [PDict Sample.i0; PDict Sample.i1; PDict Sample.i1_again]
    = (pre ++ PDict Sample.i1 :: post)%list
    /\ Forall (other_record "i1") pre
    /\ Sample.i1 !! "instance" = Some (PStr "i1").
Proof.
  apply (login_options_returns_first_record Sample.driver
           (Sample.provisioned
              [PDict Sample.i0; PDict Sample.i1; PDict Sample.i1_again])
           "i1").
  - reflexivity.
  - vm_compute. reflexivity.
Defined.

(** ** Files whose items all carry an instance field *)

Lemma has_instance_cases instance_name item :
  has_instance item ->
  record_of instance_name item \/ other_record instance_name item.
Proof.
  intros (d & v & -> & Hd).
  destruct (eq_str v instance_name) eqn:Hv.
  - left. apply eq_str_true in Hv as ->. by exists d.
  - right. exists v. simpl. by rewrite Hd.
Qed.

Lemma next_matching_well_formed instance_name items :
  Forall has_instance items ->
  (exists r, next_matching items instance_name = Ok r)
  \/ (Forall (other_record instance_name) items
      /\ next_matching items instance_name = Raise StopIteration).
Proof.
  induction 1 as [|item rest Hitem _ IH]; [right; by split|].
  destruct (has_instance_cases instance_name item Hitem)
    as [(d & -> & Hd)|Hother].
  - left. exists (PDict d). by apply next_matching_here.
  - rewrite next_matching_skip by done.
    destruct IH as [?|[Hrest ?]]; [by left|].
    right. split; [by constructor | done].
Qed.

(** X5. Over a file whose items are all mappings with an [instance]
    field, the lookup has two outcomes only: it returns a record of the
    file that names the instance, or no record names it and the lookup
    raises [StopIteration], which [ansible_connection_options] turns
    into the empty mapping. *)
Theorem lookup_on_well_formed_file
    (self : Vagrant) (h : host) (instance_name : string)
    (items : list pyval) :
  files h !! instance_config (_config self) = Some (PList items) ->
  Forall has_instance items ->
  (exists d,
     _get_instance_config self h instance_name = Ok (PDict d)
     /\ PDict d ∈ items
     /\ d !! "instance" = Some (PStr instance_name))
  \/ (Forall (other_record instance_name) items
      /\ _get_instance_config self h instance_name = Raise StopIteration
      /\ ansible_connection_options self h instance_name = Ok ∅).
Proof.
  intros Hf Hwf.
  unfold ansible_connection_options, connection_options_of.
  rewrite (get_instance_config_list _ _ _ _ Hf).
  destruct (next_matching_well_formed instance_name items Hwf)
    as [[r Hr]|[Hother Hr]].
  - left. destruct (next_matching_Ok _ _ _ Hr) as [Hin (d & -> & Hd)].
    by exists d.
  - right. rewrite Hr. by split_and!.
Qed.

Lemma lookup_on_well_formed_file_witness :
  let h := Sample.provisioned [PDict Sample.i0; PDict Sample.i1] in
  (exists d,
     _get_instance_config Sample.driver h "i2" = Ok (PDict d)
     /\ PDict d ∈ [PDict Sample.i0; PDict Sample.i1]
     /\ d !! "instance" = Some (PStr "i2"))
  \/ (Forall (other_record "i2") [PDict Sample.i0; PDict Sample.i1]
      /\ _get_instance_config Sample.driver h "i2" = Raise StopIteration
      /\ ansible_connection_options Sample.driver h "i2" = Ok ∅).
Proof.
  apply (lookup_on_well_formed_file Sample.driver
           (Sample.provisioned [PDict Sample.i0; PDict Sample.i1]) "i2").
  - reflexivity.
  - repeat constructor.
    + exists Sample.i0, (PStr "i0"). split; reflexivity.
    + exists Sample.i1, (PStr "i1"). split; reflexivity.
Defined.

Lemma next_matching_permutation instance_name items items' :
  Forall has_instance items ->
  items ≡ₚ items' ->
  (forall a b, a ∈ items -> b ∈ items ->
     record_of instance_name a -> record_of instance_name b -> a = b) ->
  next_matching items instance_name = next_matching items' instance_name.
Proof.
  intros Hwf Hperm Huniq.
  assert (Forall has_instance items') as Hwf' by by rewrite <- Hperm.
  destruct (next_matching_well_formed instance_name items Hwf)
    as [[r Hr]|[Hother Hr]];
    destruct (next_matching_well_formed instance_name items' Hwf')
      as [[r' Hr']|[Hother' Hr']]; rewrite Hr, Hr'; try done.
  - destruct (next_matching_Ok _ _ _ Hr) as [Hin Hrec].
    destruct (next_matching_Ok _ _ _ Hr') as [Hin' Hrec'].
    rewrite <- Hperm in Hin'. f_equal. by apply Huniq.
  - destruct (next_matching_Ok _ _ _ Hr) as [Hin Hrec].
    rewrite Hperm in Hin. rewrite Forall_forall in Hother'.
    destruct (record_of_other _ _ Hrec (Hother' _ Hin)).
  - destruct (next_matching_Ok _ _ _ Hr') as [Hin' Hrec'].
    rewrite <- Hperm in Hin'. rewrite Forall_forall in Hother.
    destruct (record_of_other _ _ Hrec' (Hother _ Hin')).
Qed.

(** X6. When the instance-config file keeps the rule of one record per
    instance name, the order of its records does not matter: two files
    that hold the same well-formed records in different orders give the
    same [login_options] and the same [ansible_connection_options]. *)
Theorem lookup_order_independent
    (self : Vagrant) (h h' : host) (instance_name : string)
    (items items' : list pyval) :
  files h !! instance_config (_config self) = Some (PList items) ->
  files h' !! instance_config (_config self) = Some (PList items') ->
  Forall has_instance items ->
  items ≡ₚ items' ->
  (forall a b, a ∈ items -> b ∈ items ->
     record_of instance_name a -> record_of instance_name b -> a = b) ->
  login_options self h instance_name = login_options self h' instance_name
  /\ ansible_connection_options self h instance_name
     = ansible_connection_options self h' instance_name.
Proof.
  intros Hf Hf' Hwf Hperm Huniq.
  unfold login_options, ansible_connection_options, connection_options_of.
  rewrite (get_instance_config_list _ _ _ _ Hf).
  rewrite (get_instance_config_list _ _ _ _ Hf').
  by rewrite (next_matching_permutation _ _ _ Hwf Hperm Huniq).
Qed.

Lemma lookup_order_independent_witness :
  let h := Sample.provisioned [PDict Sample.i0; PDict Sample.i1] in
  let h' := Sample.provisioned [PDict Sample.i1; PDict Sample.i0] in
  login_options Sample.driver h "i1" = login_options Sample.driver h' "i1"
  /\ ansible_connection_options Sample.driver h "i1"
     = ansible_connection_options Sample.driver h' "i1".
Proof.
  apply (lookup_order_independent Sample.driver
           (Sample.provisioned [PDict Sample.i0; PDict Sample.i1])
           (Sample.provisioned [PDict Sample.i1; PDict Sample.i0]) "i1"
           [PDict Sample.i0; PDict Sample.i1]
           [PDict Sample.i1; PDict Sample.i0]).
  - reflexivity.
  - reflexivity.
  - repeat constructor.
    + exists Sample.i0, (PStr "i0"). split; reflexivity.
    + exists Sample.i1, (PStr "i1"). split; reflexivity.
  - apply perm_swap.
  - assert (~ record_of "i1" (PDict Sample.i0)) as Hi0.
    { intros (d & [= <-] & Hd). vm_compute in Hd. discriminate. }
    intros a b Ha Hb Hra Hrb.
    apply list_elem_of_In in Ha, Hb. simpl in Ha, Hb.
    destruct Ha as [<-|[<-|[]]]; destruct Hb as [<-|[<-|[]]];
      try reflexivity; contradiction.
Defined.

(** X7. An item met before any record of the instance that is no
    mapping, or a mapping without [instance], ends the lookup with the
    [TypeError] or the [KeyError] of [item["instance"]], whatever
    follows it in the file; [login_options] and
    [ansible_connection_options] both let it through, the latter because
    it catches [StopIteration] and [OSError] only. *)
Theorem malformed_item_propagates
    (self : Vagrant) (h : host) (instance_name : string)
    (pre post : list pyval) (bad : pyval) (e : exn) :
  files h !! instance_config (_config self)
    = Some (PList (pre ++ bad :: post)) ->
  Forall (other_record instance_name) pre ->
  getitem bad "instance" = Raise e ->
  (e = KeyError "instance" \/ e = TypeError)
  /\ _get_instance_config self h instance_name = Raise e
  /\ login_options self h instance_name = Raise e
  /\ ansible_connection_options self h instance_name = Raise e.
Proof.
  intros Hf Hpre Hbad.
  assert (e = KeyError "instance" \/ e = TypeError) as He.
  { destruct bad; simpl in Hbad; try (right; congruence).
    destruct (d !! "instance"); [discriminate|]. left. congruence. }
  assert (_get_instance_config self h instance_name = Raise e) as Hr.
  { rewrite (get_instance_config_list _ _ _ _ Hf).
    rewrite next_matching_app by done. simpl. by rewrite Hbad. }
  split_and!; [done | done | by apply login_options_Raise |].
  unfold ansible_connection_options, connection_options_of.
  rewrite Hr. simpl. by destruct He as [-> | ->].
Qed.

Lemma malformed_item_propagates_witness :
  let h := Sample.provisioned
             [PDict Sample.i0; PList []; PDict Sample.i1] in
  (TypeError = KeyError "instance" \/ TypeError = TypeError)
  /\ _get_instance_config Sample.driver h "i1" = Raise TypeError
  /\ login_options Sample.driver h "i1" = Raise TypeError
  /\ ansible_connection_options Sample.driver h "i1" = Raise TypeError.
Proof.
  apply (malformed_item_propagates Sample.driver
           (Sample.provisioned [PDict Sample.i0; PList []; PDict Sample.i1])
           "i1" [PDict Sample.i0] [PDict Sample.i1] (PList []) TypeError).
  - reflexivity.
  - repeat constructor. exists (PStr "i0"). split; reflexivity.
  - reflexivity.
Defined.

(** ** The name of the driver over a sequence of calls *)

(** X8. In a sequence of calls on one driver object, reading [name]
    returns the value of the last assignment to [name] made before it,
    and the name the object had at the start when there is none
    ([vagrant] for a driver just built); no other operation changes
    it. *)
Theorem name_is_last_assigned
    (self : Vagrant) (h : host) (ops : list operation) (i : nat) :
  ops !! i = Some OpName ->
  calls ops self h !! i
  = Some (Ok (PStr (assigned_name (take i ops) (name self)))).
Proof.
  revert self i. induction ops as [|op rest IH]; intros self i Hi; [done|].
  simpl. destruct (call op self h) as [r self1] eqn:Hcall.
  destruct i as [|i]; simpl in *.
  - injection Hi as ->. simpl in Hcall. by injection Hcall as <- <-.
  - rewrite (IH self1 i Hi). do 3 f_equal.
    destruct op; simpl in Hcall; injection Hcall as <- <-; reflexivity.
Qed.

Lemma name_is_last_assigned_witness :
  let ops := [OpName; OpNameSetter "x"; OpLoginOptions "i1";
              OpNameSetter "y"; OpSanityChecks; OpName] in
  calls ops Sample.driver Sample.bare !! 0 = Some (Ok (PStr "vagrant"))
  /\ calls ops Sample.driver Sample.bare !! 5 = Some (Ok (PStr "y")).
Proof.
  split.
  - apply (name_is_last_assigned Sample.driver Sample.bare
             [OpName; OpNameSetter "x"; OpLoginOptions "i1";
              OpNameSetter "y"; OpSanityChecks; OpName] 0).
    reflexivity.
  - apply (name_is_last_assigned Sample.driver Sample.bare
             [OpName; OpNameSetter "x"; OpLoginOptions "i1";
              OpNameSetter "y"; OpSanityChecks; OpName] 5).
    reflexivity.
Defined.

(** ** The layout of the computed paths *)

Lemma append_inv_head (a x y : string) : a ++ x = a ++ y -> x = y.
Proof. induction a as [|c a IH]; simpl; [done|]. intros [= H]. auto. Qed.

(** Joining relative names to one directory uses one separator. *)
Lemma os_path_join_separator a :
  exists sep,
    (sep = "" \/ sep = "/")
    /\ forall b, startswith b "/" = false -> os_path_join a b = a ++ sep ++ b.
Proof.
  unfold os_path_join.
  destruct (String.eqb a "" || endswith_char a "/")%bool eqn:Ha.
  - exists "". split; [by left|]. intros b ->. done.
  - exists "/". split; [by right|]. intros b ->. done.
Qed.

(** X9. The list of [default_safe_files] has five entries: the
    instance-config path in second place, and around it the ephemeral
    directory followed by one common separator (nothing or [/]) and the
    names [Vagrantfile], [.vagrant], [vagrant-*.out] and
    [vagrant-*.err]; these four paths are pairwise distinct whatever the
    directory is. *)
Theorem default_safe_files_layout (self : Vagrant) :
  exists sep,
    (sep = "" \/ sep = "/")
    /\ default_safe_files self
       = [ ephemeral_directory (_config self) ++ sep ++ "Vagrantfile";
           instance_config (_config self);
           ephemeral_directory (_config self) ++ sep ++ ".vagrant";
           ephemeral_directory (_config self) ++ sep ++ "vagrant-*.out";
           ephemeral_directory (_config self) ++ sep ++ "vagrant-*.err" ]
    /\ NoDup [ vagrantfile self;
               os_path_join (ephemeral_directory (_config self)) ".vagrant";
               os_path_join (ephemeral_directory (_config self)) "vagrant-*.out";
               os_path_join (ephemeral_directory (_config self)) "vagrant-*.err" ].
Proof.
  destruct (os_path_join_separator (ephemeral_directory (_config self)))
    as (sep & Hsep & Hjoin).
  exists sep. unfold default_safe_files, vagrantfile.
  rewrite !Hjoin by reflexivity. split_and!; [done | done |].
  assert (forall x y : string, x <> y ->
            ephemeral_directory (_config self) ++ sep ++ x
            <> ephemeral_directory (_config self) ++ sep ++ y) as Hne.
  { intros x y Hxy Heq. apply Hxy.
    by apply (append_inv_head sep), (append_inv_head _ _ _ Heq). }
  repeat (constructor; [rewrite ?not_elem_of_cons; split_and?;
                        try (apply Hne; discriminate);
                        apply not_elem_of_nil|]).
  constructor.
Qed.

(** X10. [template_dir] and [modules_dir] are the directory of the
    driver module followed by one common separator and [cookiecutter],
    respectively [modules]: two different paths inside the install
    location. *)
Theorem template_and_modules_dirs (h : host) :
  exists sep,
    (sep = "" \/ sep = "/")
    /\ template_dir h = module_dir h ++ sep ++ "cookiecutter"
    /\ modules_dir h = module_dir h ++ sep ++ "modules"
    /\ template_dir h <> modules_dir h.
Proof.
  destruct (os_path_join_separator (module_dir h)) as (sep & Hsep & Hjoin).
  exists sep. unfold template_dir, modules_dir.
  rewrite !Hjoin by reflexivity. split_and!; try done.
  intros Heq. apply append_inv_head, append_inv_head in Heq. discriminate.
Qed.

(** ** Formatting the login template *)

(** X11. For every address, user, port and identity file passed as
    keyword arguments (other arguments are ignored) and every configured
    list of SSH options whose text holds no brace, formatting the
    template of [login_cmd_template] gives [ssh], the address, [-l] and
    the user, [-p] and the port, [-i] and the identity file, then the
    options joined by spaces. *)
Theorem login_cmd_template_fills
    (self : Vagrant) (kwargs : gmap string Format.fmt_value)
    (address user port identity_file : Format.fmt_value) :
  kwargs !! "address" = Some address ->
  kwargs !! "user" = Some user ->
  kwargs !! "port" = Some port ->
  kwargs !! "identity_file" = Some identity_file ->
  Format.brace_free (join " " (ssh_connection_options (_config self))) = true ->
  Format.format (login_cmd_template self) kwargs
  = Ok ("ssh " ++ Format.py_str address
        ++ " -l " ++ Format.py_str user
        ++ " -p " ++ Format.py_str port
        ++ " -i " ++ Format.py_str identity_file
        ++ " " ++ join " " (ssh_connection_options (_config self))).
Proof. apply login_cmd_template_format. Qed.

Lemma login_cmd_template_fills_witness :
  Format.format (login_cmd_template Sample.driver)
    {[ "instance" := Format.FStr "i1";
       "address" := Format.FStr "10.0.0.7";
       "user" := Format.FStr "vagrant";
       "port" := Format.FInt 2222;
       "identity_file" := Format.FStr "/keys/id" ]}
  = Ok "ssh 10.0.0.7 -l vagrant -p 2222 -i /keys/id -o Foo=bar".
Proof.
  apply (login_cmd_template_fills Sample.driver _ (Format.FStr "10.0.0.7")
           (Format.FStr "vagrant") (Format.FInt 2222)
           (Format.FStr "/keys/id")); reflexivity.
Defined.

(** X12. When one of the four keyword arguments of the template is
    missing, formatting raises the [KeyError] of the first missing one
    in the order address, user, port, identity file, whatever the SSH
    options are. *)
Theorem login_cmd_template_missing_argument
    (self : Vagrant) (kwargs : gmap string Format.fmt_value) :
  (exists key, key ∈ template_fields /\ kwargs !! key = None) ->
  exists before key after,
    template_fields = (before ++ key :: after)%list
    /\ Forall (fun k => is_Some (kwargs !! k)) before
    /\ kwargs !! key = None
    /\ Format.format (login_cmd_template self) kwargs = Raise (KeyError key).
Proof.
  intros (key & Hkey & Hnone).
  unfold Format.format, login_cmd_template, template_fields in *. simpl.
  destruct (kwargs !! "address") as [a|] eqn:Ha; simpl.
  2:{ exists [], "address", ["user"; "port"; "identity_file"].
      split_and!; [done | constructor | done | done]. }
  destruct (kwargs !! "user") as [u|] eqn:Hu; simpl.
  2:{ exists ["address"], "user", ["port"; "identity_file"].
      split_and!; [done | | done | done].
      repeat constructor; by rewrite Ha. }
  destruct (kwargs !! "port") as [p|] eqn:Hp; simpl.
  2:{ exists ["address"; "user"], "port", ["identity_file"].
      split_and!; [done | | done | done].
      repeat constructor; by rewrite ?Ha, ?Hu. }
  destruct (kwargs !! "identity_file") as [i|] eqn:Hi; simpl.
  2:{ exists ["address"; "user"; "port"], "identity_file", [].
      split_and!; [done | | done | done].
      repeat constructor; by rewrite ?Ha, ?Hu, ?Hp. }
  exfalso. apply list_elem_of_In in Hkey. simpl in Hkey.
  destruct Hkey as [<-|[<-|[<-|[<-|[]]]]]; congruence.
Qed.

Lemma login_cmd_template_missing_argument_witness :
  let kwargs : gmap string Format.fmt_value :=
    {[ "address" := Format.FStr "10.0.0.7";
       "user" := Format.FStr "vagrant";
       "identity_file" := Format.FStr "/keys/id" ]} in
  exists before key after,
    template_fields = (before ++ key :: after)%list
    /\ Forall (fun k => is_Some (kwargs !! k)) before
    /\ kwargs !! key = None
    /\ Format.format (login_cmd_template Sample.driver) kwargs
       = Raise (KeyError key).
Proof.
  apply (login_cmd_template_missing_argument Sample.driver).
  exists "port". split; [|reflexivity].
  apply list_elem_of_In. simpl. auto.
Defined.

(** X13. The interactive login and the Ansible connection use the same
    SSH options: when [ansible_connection_options] returns a mapping
    that is not empty, its [ansible_ssh_common_args] is the text that
    ends the formatted login command. *)
Theorem login_command_ends_with_common_args
    (self : Vagrant) (h : host) (instance_name : string)
    (c : gmap string pyval) (kwargs : gmap string Format.fmt_value)
    (address user port identity_file : Format.fmt_value) :
  ansible_connection_options self h instance_name = Ok c ->
  c <> ∅ ->
  kwargs !! "address" = Some address ->
  kwargs !! "user" = Some user ->
  kwargs !! "port" = Some port ->
  kwargs !! "identity_file" = Some identity_file ->
  Format.brace_free (join " " (ssh_connection_options (_config self))) = true ->
  exists args,
    c !! "ansible_ssh_common_args" = Some (PStr args)
    /\ Format.format (login_cmd_template self) kwargs
       = Ok ("ssh " ++ Format.py_str address
             ++ " -l " ++ Format.py_str user
             ++ " -p " ++ Format.py_str port
             ++ " -i " ++ Format.py_str identity_file
             ++ " " ++ args).
Proof.
  intros Hc Hne Ha Hu Hp Hi Ho.
  exists (join " " (ssh_connection_options (_config self))).
  split; [|by apply login_cmd_template_format].
  revert Hc. unfold ansible_connection_options, connection_options_of.
  destruct (_get_instance_config self h instance_name) as [r|e] eqn:Hr; simpl.
  - destruct (get_instance_config_Ok _ _ _ r Hr) as (d & -> & _).
    unfold connection_mapping. simpl.
    destruct (d !! "user"); simpl; [|discriminate].
    destruct (d !! "address"); simpl; [|discriminate].
    destruct (d !! "port"); simpl; [|discriminate].
    destruct (d !! "identity_file"); simpl; [|discriminate].
    by intros [= <-].
  - destruct e; intros [= <-]; done.
Qed.

Lemma login_command_ends_with_common_args_witness :
  exists args,
    ({[ "ansible_user" := PStr "u";
        "ansible_host" := PStr "1.2.3.4";
        "ansible_port" := PInt 22;
        "ansible_private_key_file" := PStr "/key";
        "connection" := PStr "ssh";
        "ansible_ssh_common_args" := PStr "-o Foo=bar" ]}
       : gmap string pyval) !! "ansible_ssh_common_args" = Some (PStr args)
    /\ Format.format (login_cmd_template Sample.driver)
         {[ "address" := Format.FStr "1.2.3.4";
            "user" := Format.FStr "u";
            "port" := Format.FInt 22;
            "identity_file" := Format.FStr "/key" ]}
       = Ok ("ssh " ++ Format.py_str (Format.FStr "1.2.3.4")
             ++ " -l " ++ Format.py_str (Format.FStr "u")
             ++ " -p " ++ Format.py_str (Format.FInt 22)
             ++ " -i " ++ Format.py_str (Format.FStr "/key")
             ++ " " ++ args).
Proof.
  apply (login_command_ends_with_common_args Sample.driver
           (Sample.provisioned [PDict Sample.i1]) "i1").
  - vm_compute. reflexivity.
  - intros H. apply (f_equal (fun m => m !! "connection")) in H.
    vm_compute in H. discriminate.
  - reflexivity.
  - reflexivity.
  - reflexivity.
  - reflexivity.
  - reflexivity.
Defined.
